(** * Learning_FastAPI: the request handler and the form client

    A shallow embedding of [fastapi_backend.py] (three routes of a FastAPI
    application) and of [streamlit_frontend.py] (a Streamlit form that calls
    two of them), with the properties stated about them.

    Python [int] is unbounded and is embedded as [Z]; Python [float] is an
    IEEE 754 binary64 and is embedded as the primitive [float]; [str] is
    [string]; [Optional[str]] is [option string]; a [dict] literal is an
    association list in the order the source writes its keys. *)

From Stdlib Require Import ZArith List String Ascii Bool Lia.
From Stdlib Require Import DecimalString DecimalZ.
From Stdlib Require Import PrimFloat SpecFloat FloatOps.
Import ListNotations.

Local Open Scope string_scope.
Local Open Scope Z_scope.

(** ** Values on the wire *)

Local Set Warnings "-register-all".

(** A decoded JSON document, as [json.loads] / [response.json()] produce it:
    [None], [bool], [int], [float], [str], [list], [dict]. A dict is the
    list of its items in insertion order. *)
Inductive json : Type :=
| JNull
| JBool (b : bool)
| JInt (z : Z)
| JFloat (f : float)
| JStr (s : string)
| JArr (xs : list json)
| JObj (fields : list (string * json)).

(** [d.get(key)] on a decoded object: the value bound to [key], if any. *)
Fixpoint dict_get {V : Type} (key : string) (d : list (string * V)) : option V :=
  match d with
  | [] => None
  | (k, v) :: rest => if String.eqb k key then Some v else dict_get key rest
  end.

(** [key in d]. *)
Definition has_key {V : Type} (key : string) (d : list (string * V)) : bool :=
  match dict_get key d with Some _ => true | None => false end.

(** [str(n)] for a Python [int]: decimal digits, with a leading minus sign
    for a negative number. *)
Definition str_of_int (n : Z) : string := NilZero.string_of_int (Z.to_int n).

(** CPython converts between [int] and [str] only up to this many decimal
    digits ([sys.get_int_max_str_digits()], 4300 unless reconfigured);
    beyond it the conversion raises [ValueError]. *)
Definition int_max_str_digits : nat := 4300.

(** The number of decimal digits of [n], the sign not counted. *)
Definition digits (n : Z) : nat := String.length (str_of_int (Z.abs n)).

(** [needle in haystack] for two strings, as a proposition. *)
Definition contains (haystack needle : string) : Prop :=
  exists before after, haystack = before ++ needle ++ after.

(** ** The request handler ([fastapi_backend.py]) *)

Module Backend.

(** [class Item(BaseModel)]: [name: str], [description: Optional[str] = None],
    [price: float]. *)
Record Item : Type := mkItem {
  name : string;
  description : option string;
  price : float
}.

(** What a route function puts in the dict it returns. *)
Inductive pyval : Type :=
| PStr (s : string)
| PInt (z : Z)
| PItem (it : Item).

Definition pydict : Type := list (string * pyval).

(** [read_root]: [return {"message": "Welcome to the FastAPI app!"}]. *)
Definition read_root : pydict :=
  [("message", PStr "Welcome to the FastAPI app!")].

(** [create_item]:
    [return {"message": f"Item {item.name} created successfully!", "item": item}]. *)
Definition create_item (item : Item) : pydict :=
  [("message", PStr ("Item " ++ name item ++ " created successfully!"));
   ("item", PItem item)].

(** [read_item]: [return {"item_id": item_id, "square": item_id ** 2}];
    the parameter [q] is bound and not read. *)
Definition read_item (item_id : Z) (q : option string) : pydict :=
  [("item_id", PInt item_id); ("square", PInt (item_id ^ 2))].

(** *** Request validation

    FastAPI reads the annotations of a route function and has pydantic turn
    the raw request into the annotated types before the function is called.
    The coercion of one raw value into [str], [float] or [int] belongs to
    that library; the route functions are written against any such
    coercion, so it is an interface here. *)
Class Validators : Type := {
  (** a body field annotated [str] *)
  str_validate : json -> option string;
  (** a body field annotated [float] *)
  float_validate : json -> option float;
  (** a path parameter annotated [int], from its text in the URL *)
  int_validate : string -> option Z
}.

(** One entry of a validation error: the field and what is wrong with it. *)
Inductive field_error : Type :=
| Missing (field : string)
| WrongType (field : string).

Section Routes.
Context {V : Validators}.

(** [name: str], no default: the field is required. *)
Definition validate_name (body : list (string * json)) : field_error + string :=
  match dict_get "name" body with
  | None => inl (Missing "name")
  | Some v =>
      match str_validate v with
      | Some s => inr s
      | None => inl (WrongType "name")
      end
  end.

(** [description: Optional[str] = None]: an absent field takes the default,
    [null] is accepted as [None], anything else has to be a [str]. *)
Definition validate_description (body : list (string * json))
  : field_error + option string :=
  match dict_get "description" body with
  | None => inr None
  | Some JNull => inr None
  | Some v =>
      match str_validate v with
      | Some s => inr (Some s)
      | None => inl (WrongType "description")
      end
  end.

(** [price: float], no default: the field is required. *)
Definition validate_price (body : list (string * json)) : field_error + float :=
  match dict_get "price" body with
  | None => inl (Missing "price")
  | Some v =>
      match float_validate v with
      | Some f => inr f
      | None => inl (WrongType "price")
      end
  end.

(** The errors of one field, as a list to be concatenated. *)
Definition errors_of {A : Type} (r : field_error + A) : list field_error :=
  match r with inl e => [e] | inr _ => [] end.

(** Validation of a decoded object against [Item]: every field is checked,
    the errors of all of them are reported together, and an [Item] is built
    only when there is none. *)
Definition validate_Item (body : list (string * json))
  : list field_error + Item :=
  let rn := validate_name body in
  let rd := validate_description body in
  let rp := validate_price body in
  match rn, rd, rp with
  | inr n, inr d, inr p => inr (mkItem n d p)
  | _, _, _ => inl (errors_of rn ++ errors_of rd ++ errors_of rp)%list
  end.

(** The ways a field can be at fault, read off the three declarations: a
    required field is absent or its value is not coerced; the optional one is
    present, not [null], and its value is not coerced. *)
Definition name_rejected (fields : list (string * json)) : Prop :=
  dict_get "name" fields = None
  \/ exists v, dict_get "name" fields = Some v /\ str_validate v = None.

Definition price_rejected (fields : list (string * json)) : Prop :=
  dict_get "price" fields = None
  \/ exists v, dict_get "price" fields = Some v /\ float_validate v = None.

Definition description_rejected (fields : list (string * json)) : Prop :=
  exists v, dict_get "description" fields = Some v
            /\ v <> JNull /\ str_validate v = None.

(** [@app.get("/")]. *)
Definition get_root : list field_error + pydict := inr read_root.

(** [@app.post("/items/")] with [item: Item]: the request body has to be an
    object that validates as an [Item]; only then is [create_item] called. *)
Definition post_items (body : json) : list field_error + pydict :=
  match body with
  | JObj fields =>
      match validate_Item fields with
      | inr item => inr (create_item item)
      | inl errs => inl errs
      end
  | _ => inl [WrongType "body"]
  end.

(** [@app.get("/items/{item_id}")] with [item_id: int] and
    [q: Optional[str] = None]: the path segment has to validate as an [int];
    the query parameter is any text or absent. *)
Definition get_items (item_id : string) (q : option string)
  : list field_error + pydict :=
  match int_validate item_id with
  | Some n => inr (read_item n q)
  | None => inl [WrongType "item_id"]
  end.

(** *** The application as a process

    A request names one of the three registered routes with its raw input. *)
Inductive request : Type :=
| GetRoot
| PostItems (body : json)
| GetItems (item_id : string) (q : option string).

Definition dispatch (r : request) : list field_error + pydict :=
  match r with
  | GetRoot => get_root
  | PostItems body => post_items body
  | GetItems item_id q => get_items item_id q
  end.

(** The module keeps no variable that a route function reads or assigns, so
    whatever the state [S] of the process is, a request threads it through
    untouched. [handle] answers one request, [serve] a sequence of them,
    collecting the answers in order. *)
Definition handle {S : Type} (st : S) (r : request)
  : S * (list field_error + pydict) :=
  (st, dispatch r).

Fixpoint serve {S : Type} (st : S) (rs : list request)
  : S * list (list field_error + pydict) :=
  match rs with
  | [] => (st, [])
  | r :: rest =>
      let (st1, answer) := handle st r in
      let (st2, answers) := serve st1 rest in
      (st2, answer :: answers)
  end.

End Routes.

(** Whether a route answered with a validation error. *)
Definition is_validation_error {A : Type} (r : list field_error + A) : bool :=
  match r with inl _ => true | inr _ => false end.

(** *** The route functions as procedures

    The data bound to module-level names at run time ([globals()]). A call
    of a route function runs against it: a function body may load a name or
    store one, and what it stores is there for the next call. *)
Definition namespace : Type := list (string * pyval).

Definition proc (A : Type) : Type := namespace -> A * namespace.

Definition proc_ret {A : Type} (a : A) : proc A := fun ns => (a, ns).

Definition proc_bind {A B : Type} (m : proc A) (k : A -> proc B) : proc B :=
  fun ns => let (a, ns1) := m ns in k a ns1.

(** Reading a module-level name. *)
Definition load_global (name : string) : proc (option pyval) :=
  fun ns => (dict_get name ns, ns).

(** [global name; name = v]. *)
Definition store_global (name : string) (v : pyval) : proc unit :=
  fun ns => (tt, (name, v) :: ns).

(** The three function bodies. Each is one [return] of a dict display built
    from the parameters: no statement loads or stores a module-level
    name. *)
Definition read_root_call : proc pydict := proc_ret read_root.

Definition create_item_call (item : Item) : proc pydict :=
  proc_ret (create_item item).

Definition read_item_call (item_id : Z) (q : option string) : proc pydict :=
  proc_ret (read_item item_id q).

Section Calls.
Context {V : Validators}.

(** The routes as procedures: validation first, then the call. *)
Definition post_items_call (body : json) : proc (list field_error + pydict) :=
  match body with
  | JObj fields =>
      match validate_Item fields with
      | inr item => proc_bind (create_item_call item) (fun d => proc_ret (inr d))
      | inl errs => proc_ret (inl errs)
      end
  | _ => proc_ret (inl [WrongType "body"])
  end.

Definition get_items_call (item_id : string) (q : option string)
  : proc (list field_error + pydict) :=
  match int_validate item_id with
  | Some n => proc_bind (read_item_call n q) (fun d => proc_ret (inr d))
  | None => proc_ret (inl [WrongType "item_id"])
  end.

Definition dispatch_call (r : request) : proc (list field_error + pydict) :=
  match r with
  | GetRoot => proc_bind read_root_call (fun d => proc_ret (inr d))
  | PostItems body => post_items_call body
  | GetItems item_id q => get_items_call item_id q
  end.

(** A sequence of requests answered one after the other by one process. *)
Fixpoint serve_calls (rs : list request)
  : proc (list (list field_error + pydict)) :=
  match rs with
  | [] => proc_ret []
  | r :: rest =>
      proc_bind (dispatch_call r) (fun answer =>
      proc_bind (serve_calls rest) (fun answers =>
      proc_ret (answer :: answers)))
  end.

End Calls.

(** *** Serialisation of an answer

    FastAPI turns the returned dict into a JSON object; an [Item] becomes an
    object of its three fields, [None] becomes [null]. [encode] is the
    object that comes out when the dict can be serialised; [serialise] says
    whether it can. *)
Definition encode_item (it : Item) : json :=
  JObj [("name", JStr (name it));
        ("description", match description it with
                        | Some d => JStr d
                        | None => JNull
                        end);
        ("price", JFloat (price it))].

Definition encode_value (v : pyval) : json :=
  match v with
  | PStr s => JStr s
  | PInt z => JInt z
  | PItem it => encode_item it
  end.

Definition encode (d : pydict) : json :=
  JObj (map (fun kv => (fst kv, encode_value (snd kv))) d).

(** What [json.dumps] refuses: an [int] of more digits than the conversion
    limit, and a [float] that is infinite or not a number (the response is
    rendered with [allow_nan=False]). *)
Definition serialisable (v : pyval) : bool :=
  match v with
  | PStr _ => true
  | PInt z => Nat.leb (digits z) int_max_str_digits
  | PItem it => PrimFloat.is_finite (price it)
  end.

(** The rendering of a returned dict: it raises, here [None], when one of
    the values is refused. *)
Definition serialise (d : pydict) : option json :=
  if forallb (fun kv => serialisable (snd kv)) d then Some (encode d) else None.

End Backend.

(** ** The form client ([streamlit_frontend.py]) *)

Module Frontend.

(** The exceptions the script can end with; none of them is caught. *)
Inductive exn : Type :=
| KeyError (key : string)
| TypeError
| AttributeError
| JSONDecodeError
| ConnectionError.

(** What [requests.post] / [requests.get] hand back: the status code and the
    body, decoded by [response.json()] when it is JSON. *)
Record Response : Type := mkResponse {
  status_code : Z;
  content : option json
}.

(** The network and whatever answers on the other side. A call either
    raises or returns a response. *)
Class Transport : Type := {
  requests_post : string -> json -> exn + Response;
  requests_get : string -> exn + Response
}.

(** What the script puts on the page. An f-string with one hole is kept as
    its literal text and the value that fills the hole. *)
Inductive element : Type :=
| title (body : string)
| success (body : json)
| error (body : string)
| write (text : string) (value : json).

(** What the user did before this run of the script: the text typed in the
    two text widgets, the numbers entered in the two number widgets (nothing
    entered yet is [None]), and the button pressed, if any. *)
Record Session : Type := mkSession {
  name_entry : string;
  description_entry : string;
  price_entry : option float;
  create_clicked : bool;
  item_id_entry : option Z;
  get_clicked : bool
}.

(** Modelled from the spec: [st.number_input] is Streamlit's, not this
    repository's. The spec has it that the presentation layer clamps user
    input to the lower bound given as [min_value]; with nothing entered the
    widget shows that bound. *)
Definition number_input_float (min_value : float) (entered : option float) : float :=
  match entered with
  | None => min_value
  | Some v => if PrimFloat.leb min_value v then v else min_value
  end.

(** Modelled from the spec: the same widget with an [int] bound. *)
Definition number_input_int (min_value : Z) (entered : option Z) : Z :=
  match entered with
  | None => min_value
  | Some v => if min_value <=? v then v else min_value
  end.

(** [response.json()]. *)
Definition response_json (r : Response) : exn + json :=
  match content r with
  | Some v => inr v
  | None => inl JSONDecodeError
  end.

(** [obj[key]] with a [str] key: defined on a dict that has the key. *)
Definition subscript (obj : json) (key : string) : exn + json :=
  match obj with
  | JObj fields =>
      match dict_get key fields with
      | Some v => inr v
      | None => inl (KeyError key)
      end
  | _ => inl TypeError
  end.

(** [obj.get(key, default)]: defined on a dict only. *)
Definition get_default (obj : json) (key : string) (default : json) : exn + json :=
  match obj with
  | JObj fields =>
      match dict_get key fields with
      | Some v => inr v
      | None => inr default
      end
  | _ => inl AttributeError
  end.

(** A run of the script: it appends to the page and either goes on with a
    value or stops at an exception. *)
Definition script (A : Type) : Type := list element -> list element * (exn + A).

Definition ret {A : Type} (a : A) : script A := fun page => (page, inr a).

Definition raise {A : Type} (e : exn) : script A := fun page => (page, inl e).

Definition bind {A B : Type} (m : script A) (k : A -> script B) : script B :=
  fun page =>
    match m page with
    | (page', inr a) => k a page'
    | (page', inl e) => (page', inl e)
    end.

Definition lift {A : Type} (r : exn + A) : script A :=
  match r with
  | inl e => raise e
  | inr a => ret a
  end.

Definition show (e : element) : script unit :=
  fun page => ((page ++ [e])%list, inr tt).

Declare Scope script_scope.
Delimit Scope script_scope with script.
Notation "x <- m ;; k" := (bind m (fun x => k))
  (at level 61, m at next level, right associativity) : script_scope.
Notation "m ;; k" := (bind m (fun _ => k))
  (at level 61, right associativity) : script_scope.
Local Open Scope script_scope.

(** The payload of the create form. *)
Definition item_data (name description : string) (price : float) : json :=
  JObj [("name", JStr name); ("description", JStr description); ("price", JFloat price)].

(** HTTP counts the statuses 200 to 299 as success. *)
Definition success_status (code : Z) : bool := (200 <=? code) && (code <? 300).

Definition create_failed : string := "Failed to create the item.".
Definition fetch_failed : string := "Failed to fetch item details.".

Section Script.
Context {T : Transport}.

(** The body of [if st.button("Create Item"):]. *)
Definition on_create (name description : string) (price : float) : script unit :=
  response <- lift (requests_post "http://127.0.0.1:8000/items/"
                      (item_data name description price)) ;;
  if status_code response =? 200 then
    body <- lift (response_json response) ;;
    message <- lift (subscript body "message") ;;
    show (success message)
  else
    show (error create_failed).

(** The body of [if st.button("Get Item Details"):]. *)
Definition on_get (item_id : Z) : script unit :=
  response <- lift (requests_get ("http://127.0.0.1:8000/items/" ++ str_of_int item_id)) ;;
  if status_code response =? 200 then
    item <- lift (response_json response) ;;
    shown_id <- lift (subscript item "item_id") ;;
    show (write "Item ID: " shown_id) ;;
    shown_square <- lift (get_default item "square" (JStr "No query provided")) ;;
    show (write "Query: " shown_square)
  else
    show (error fetch_failed).

(** The whole script, top to bottom. *)
Definition main (s : Session) : script unit :=
  show (title "FastAPI + Streamlit Example") ;;
  let name := name_entry s in
  let description := description_entry s in
  let price := number_input_float 0%float (price_entry s) in
  (if create_clicked s then on_create name description price else ret tt) ;;
  let item_id := number_input_int 1 (item_id_entry s) in
  if get_clicked s then on_get item_id else ret tt.

End Script.

End Frontend.

(** ** The two halves wired together

    A concrete choice for the two interfaces, so that the client can be run
    against the handler inside the model. *)

Module Wiring.

Import Backend Frontend.

(** A Python [int] as a [float]: [float(n)] rounds to nearest and raises
    [OverflowError], here [None], when the result is out of range. *)
Definition float_of_int (n : Z) : option float :=
  let f := SF2Prim (binary_normalize prec emax n 0 false) in
  if PrimFloat.is_infinity f then None else Some f.

(** The text of a path segment as an [int]: an optionally signed run of
    decimal digits, no longer than the conversion limit. *)
Definition parse_int (s : string) : option Z :=
  if Nat.leb (String.length s) int_max_str_digits
  then option_map Z.of_int (NilZero.int_of_string s)
  else None.

(** Modelled from the spec: pydantic's coercions are not part of this
    repository. The spec has a name and a description that are text, a price
    that is numeric and an id that is integer-parseable: a JSON string is
    text, a JSON number that is in the range of a float is numeric, and an
    optionally signed run of decimal digits is an integer. *)
Definition json_native : Validators := {|
  str_validate v :=
    match v with
    | JStr s => Some s
    | _ => None
    end;
  float_validate v :=
    match v with
    | JFloat f => Some f
    | JInt n => float_of_int n
    | _ => None
    end;
  int_validate := parse_int
|}.

(** [s] without its prefix [p], when it has it. *)
Fixpoint strip_prefix (p s : string) : option string :=
  match p, s with
  | EmptyString, _ => Some s
  | String a p', String b s' =>
      if Ascii.eqb a b then strip_prefix p' s' else None
  | String _ _, EmptyString => None
  end.

Definition field_of (e : field_error) : string :=
  match e with Missing f => f | WrongType f => f end.

(** What the server sends when rendering the answer raises: status 500 and
    a body that is plain text, not JSON. *)
Definition internal_server_error : Response := mkResponse 500 None.

(** The HTTP answer to a request: 422 with the offending fields under
    ["detail"] for a validation error; for a returned dict, 200 with the
    serialised dict, or 500 when it cannot be serialised. *)
Definition respond (r : list field_error + pydict) : Response :=
  match r with
  | inr d =>
      match serialise d with
      | Some body => mkResponse 200 (Some body)
      | None => internal_server_error
      end
  | inl errs =>
      mkResponse 422 (Some (JObj [("detail", JArr (map (fun e => JStr (field_of e)) errs))]))
  end.

Definition not_found : Response :=
  mkResponse 404 (Some (JObj [("detail", JStr "Not Found")])).

(** The handler behind the two URLs the client calls; any other URL is
    answered 404. No call raises. *)
Definition loopback : Transport := {|
  requests_post url payload :=
    if String.eqb url "http://127.0.0.1:8000/items/"
    then inr (respond (post_items (V := json_native) payload))
    else inr not_found;
  requests_get url :=
    match strip_prefix "http://127.0.0.1:8000/items/" url with
    | Some (String a rest) =>
        inr (respond (get_items (V := json_native) (String a rest) None))
    | _ => inr not_found
    end
|}.

(** A transport that answers every call with the given status and no body. *)
Definition always (code : Z) : Transport := {|
  requests_post _ _ := inr (mkResponse code None);
  requests_get _ := inr (mkResponse code None)
|}.

(** A transport that answers every call with the given response. *)
Definition answering (r : Response) : Transport := {|
  requests_post _ _ := inr r;
  requests_get _ := inr r
|}.

(** A transport that answers 200 and sends the posted payload back as the
    message, which puts the payload on the page. *)
Definition echo : Transport := {|
  requests_post _ payload := inr (mkResponse 200 (Some (JObj [("message", payload)])));
  requests_get _ := inr not_found
|}.


(** A transport on which every call raises. *)
Definition unreachable : Transport := {|
  requests_post _ _ := inl ConnectionError;
  requests_get _ := inl ConnectionError
|}.

End Wiring.

(** * Properties *)

Import Backend Frontend Wiring.

(** ** The route functions *)

Example read_item_4 :
  read_item 4 None = [("item_id", PInt 4); ("square", PInt 16)].
Proof. reflexivity. Qed.

Example float_of_int_3 : float_of_int 3 = Some 3%float.
Proof. reflexivity. Qed.

(** [n ** 2] on an unbounded integer. *)
Lemma pow_2_square (n : Z) : n ^ 2 = n * n.
Proof. apply Z.pow_2_r. Qed.

(** C1: for every integer [n], and whatever [q] is, [read_item] returns
    exactly the dict with [item_id] bound to [n] and [square] bound to
    [n * n]. The function has one return statement and no other exit: it
    looks nothing up and has no not-found answer. *)
Theorem read_item_returns_id_and_square :
  forall (n : Z) (q : option string),
    read_item n q = [("item_id", PInt n); ("square", PInt (n * n))].
Proof.
  intros n q. unfold read_item. rewrite pow_2_square. reflexivity.
Qed.

Lemma contains_between (before needle after : string) :
  contains (before ++ needle ++ after) needle.
Proof. exists before, after. reflexivity. Qed.

(** C2: for every validated item, with a description or without one,
    [create_item] returns a dict of two entries: a message that contains the
    item's name verbatim, and the item itself, unchanged in all three
    fields. *)
Theorem create_item_message_and_echo :
  forall (n : string) (d : option string) (p : float),
    let item := mkItem n d p in
    exists message echoed,
      create_item item = [("message", PStr message); ("item", PItem echoed)]
      /\ contains message n
      /\ echoed = item
      /\ name echoed = n /\ description echoed = d /\ price echoed = p.
Proof.
  intros n d p item.
  exists ("Item " ++ n ++ " created successfully!"), item.
  split; [reflexivity|].
  split; [apply contains_between|].
  repeat split.
Qed.

(** The route calls [create_item] on exactly the item that validation
    built from the body. *)
Lemma post_items_accepts {V : Validators} (fields : list (string * json))
      (item : Item) :
  validate_Item fields = inr item ->
  post_items (JObj fields) = inr (create_item item).
Proof. intros H. unfold post_items. now rewrite H. Qed.

(** The same answer after serialisation: the message is a JSON string and
    the echo an object of the three fields, [null] for no description. *)
Lemma create_item_encoded (item : Item) :
  encode (create_item item) =
  JObj [("message", JStr ("Item " ++ name item ++ " created successfully!"));
        ("item", encode_item item)].
Proof. reflexivity. Qed.

(** C8: [read_root] takes no argument and is the one fixed greeting; the
    route answers with it, never with an error, from any state of the
    process and under any validators. *)
Theorem read_root_fixed_greeting :
  read_root = [("message", PStr "Welcome to the FastAPI app!")]
  /\ (forall (V : Validators) (S : Type) (st : S),
        handle st GetRoot
        = (st, inr [("message", PStr "Welcome to the FastAPI app!")]))
  /\ (forall V : Validators, is_validation_error (dispatch GetRoot) = false).
Proof. repeat split. Qed.

(** ** Validation at the boundary *)

Section ValidationFacts.
Context {V : Validators}.

Lemma validate_name_inl fields :
  (exists e, validate_name fields = inl e) <-> name_rejected fields.
Proof.
  unfold validate_name, name_rejected.
  destruct (dict_get "name" fields) as [v|] eqn:E.
  - destruct (str_validate v) eqn:Ev; split.
    + intros [e He]. discriminate.
    + intros [H|[v' [H1 H2]]]; [discriminate|]. injection H1 as <-. congruence.
    + intros _. right. exists v. auto.
    + intros _. eexists. reflexivity.
  - split; [intros _; left; reflexivity | intros _; eexists; reflexivity].
Qed.

Lemma validate_price_inl fields :
  (exists e, validate_price fields = inl e) <-> price_rejected fields.
Proof.
  unfold validate_price, price_rejected.
  destruct (dict_get "price" fields) as [v|] eqn:E.
  - destruct (float_validate v) eqn:Ev; split.
    + intros [e He]. discriminate.
    + intros [H|[v' [H1 H2]]]; [discriminate|]. injection H1 as <-. congruence.
    + intros _. right. exists v. auto.
    + intros _. eexists. reflexivity.
  - split; [intros _; left; reflexivity | intros _; eexists; reflexivity].
Qed.

Lemma validate_description_inl fields :
  (exists e, validate_description fields = inl e) <-> description_rejected fields.
Proof.
  unfold validate_description, description_rejected.
  destruct (dict_get "description" fields) as [v|] eqn:E.
  - split.
    + intros [e He]. exists v. split; [reflexivity|].
      destruct v; try discriminate;
        (split; [discriminate|]);
        match goal with
        | |- str_validate ?x = None =>
            destruct (str_validate x); [discriminate | reflexivity]
        end.
    + intros [v' [H1 [H2 H3]]]. injection H1 as <-.
      destruct v; try congruence; rewrite H3; eexists; reflexivity.
  - split; [intros [e He]; discriminate | intros [v [H _]]; discriminate].
Qed.

Lemma validate_Item_inl fields :
  is_validation_error (validate_Item fields) = true
  <-> (exists e, validate_name fields = inl e)
      \/ (exists e, validate_price fields = inl e)
      \/ (exists e, validate_description fields = inl e).
Proof.
  unfold validate_Item.
  destruct (validate_name fields) as [en|n];
  destruct (validate_description fields) as [ed|d];
  destruct (validate_price fields) as [ep|p]; simpl;
  split; intros H; try reflexivity; try discriminate; eauto;
  destruct H as [[e H]|[[e H]|[e H]]]; discriminate.
Qed.

Lemma post_items_error fields :
  is_validation_error (post_items (JObj fields))
  = is_validation_error (validate_Item fields).
Proof.
  unfold post_items. destruct (validate_Item fields); reflexivity.
Qed.

End ValidationFacts.

(** C3, as amended: under any validators, [create_item]'s route answers an
    object with a validation error exactly when [name] is absent or not
    coerced to text, [price] is absent or not coerced to a number, or
    [description] is present, not [null] and not coerced to text; and an
    object whose name and price validate and that has no description is
    accepted, the item's description being [None]. *)
Theorem post_items_rejects_exactly :
  forall (V : Validators) (fields : list (string * json)),
    (is_validation_error (post_items (JObj fields)) = true
     <-> name_rejected fields \/ price_rejected fields \/ description_rejected fields)
    /\ (forall vn n vp p,
          dict_get "name" fields = Some vn -> str_validate vn = Some n ->
          dict_get "price" fields = Some vp -> float_validate vp = Some p ->
          dict_get "description" fields = None ->
          post_items (JObj fields) = inr (create_item (mkItem n None p))).
Proof.
  intros V fields. split.
  - rewrite post_items_error, validate_Item_inl,
      validate_name_inl, validate_price_inl, validate_description_inl.
    reflexivity.
  - intros vn n vp p Hn Hvn Hp Hvp Hd.
    unfold post_items, validate_Item, validate_name, validate_price,
      validate_description.
    rewrite Hn, Hvn, Hp, Hvp, Hd. reflexivity.
Qed.

Lemma post_items_rejects_exactly_witness :
  post_items (V := json_native)
    (JObj [("name", JStr "pen"); ("price", JFloat 2.5%float)])
  = inr (create_item (mkItem "pen" None 2.5%float)).
Proof.
  exact (proj2 (post_items_rejects_exactly json_native
                  [("name", JStr "pen"); ("price", JFloat 2.5%float)])
           (JStr "pen") "pen" (JFloat 2.5%float) 2.5%float
           eq_refl eq_refl eq_refl eq_refl eq_refl).
Defined.

(** C3, as first stated, fails: this object has a name field and a price
    that is a number, and is answered with a validation error all the same,
    because the name is a list and not text. *)
Lemma post_items_rejects_untyped_name :
  is_validation_error
    (post_items (V := json_native)
       (JObj [("name", JArr [JStr "pen"]); ("price", JFloat 1.5%float)])) = true
  /\ dict_get "name" [("name", JArr [JStr "pen"]); ("price", JFloat 1.5%float)]
     = Some (JArr [JStr "pen"])
  /\ dict_get "price" [("name", JArr [JStr "pen"]); ("price", JFloat 1.5%float)]
     = Some (JFloat 1.5%float)
  /\ float_validate (Validators := json_native) (JFloat 1.5%float) = Some 1.5%float.
Proof. repeat split. Qed.

(** A description that is a number is refused as well, although the field
    is optional. *)
Example post_items_rejects_untyped_description :
  post_items (V := json_native)
    (JObj [("name", JStr "pen"); ("description", JInt 3); ("price", JInt 2)])
  = inl [WrongType "description"].
Proof. reflexivity. Qed.

(** An explicit [null] description is the same as none. *)
Example post_items_null_description :
  post_items (V := json_native)
    (JObj [("name", JStr "pen"); ("description", JNull); ("price", JInt 2)])
  = inr (create_item (mkItem "pen" None 2%float)).
Proof. reflexivity. Qed.

(** Every field at fault is reported, in the order of the declarations. *)
Example post_items_reports_all :
  post_items (V := json_native) (JObj [("description", JInt 3)])
  = inl [Missing "name"; WrongType "description"; Missing "price"].
Proof. reflexivity. Qed.


(** Reading back the decimal text of an integer gives that integer. *)
Lemma decimal_round_trip (n : Z) :
  option_map Z.of_int (NilZero.int_of_string (str_of_int n)) = Some n.
Proof.
  unfold str_of_int. rewrite NilZero.isi.
  - cbn [option_map]. rewrite DecimalZ.of_to. reflexivity.
  - destruct n; cbn; try discriminate.
    intros [= H]. exact (DecimalPos.Unsigned.to_uint_nonnil _ H).
  - destruct n; cbn; try discriminate.
    intros [= H]. exact (DecimalPos.Unsigned.to_uint_nonnil _ H).
Qed.

Lemma parse_int_str_of_int (n : Z) :
  (String.length (str_of_int n) <= int_max_str_digits)%nat ->
  parse_int (str_of_int n) = Some n.
Proof.
  intros H. unfold parse_int.
  rewrite (proj2 (Nat.leb_le _ _) H). apply decimal_round_trip.
Qed.

(** The sign, when there is one, is one more character. *)
Lemma digits_le_text (n : Z) : (digits n <= String.length (str_of_int n))%nat.
Proof.
  unfold digits, str_of_int. destruct n as [|p|p]; cbn; lia.
Qed.

(** A lookup by the decimal text of an integer is handed that integer. *)
Lemma get_items_of_decimal (n : Z) (q : option string) :
  (String.length (str_of_int n) <= int_max_str_digits)%nat ->
  get_items (V := json_native) (str_of_int n) q
  = inr [("item_id", PInt n); ("square", PInt (n * n))].
Proof.
  intros H. unfold get_items. cbn [int_validate json_native].
  rewrite (parse_int_str_of_int n H).
  unfold read_item. rewrite pow_2_square. reflexivity.
Qed.

(** The answer to a lookup that validated: 200 with the two numbers when
    both can be printed, 500 otherwise. *)
Lemma respond_lookup (n : Z) :
  respond (inr [("item_id", PInt n); ("square", PInt (n * n))])
  = if Nat.leb (digits n) int_max_str_digits
       && Nat.leb (digits (n * n)) int_max_str_digits
    then mkResponse 200 (Some (JObj [("item_id", JInt n); ("square", JInt (n * n))]))
    else internal_server_error.
Proof.
  unfold respond, serialise. cbn [forallb snd serialisable].
  rewrite andb_true_r.
  destruct (Nat.leb (digits n) int_max_str_digits
            && Nat.leb (digits (n * n)) int_max_str_digits); reflexivity.
Qed.

(** The digits of a power of ten: a one and as many zeros as the
    exponent. *)
Lemma length_string_of_uint (d : Decimal.uint) :
  String.length (NilEmpty.string_of_uint d) = Decimal.nb_digits d.
Proof. induction d; cbn; congruence. Qed.

Lemma length_str_of_pos (p : positive) :
  String.length (str_of_int (Zpos p))
  = Decimal.nb_digits (Pos.to_little_uint p).
Proof.
  unfold str_of_int. cbn [Z.to_int NilZero.string_of_int].
  unfold NilZero.string_of_uint.
  destruct (Pos.to_uint p) eqn:E;
    try (rewrite <- E, length_string_of_uint; unfold Pos.to_uint;
         apply DecimalFacts.nb_digits_rev).
  now apply DecimalPos.Unsigned.to_uint_nonnil in E.
Qed.

Lemma ten_pow_little_uint (k : nat) :
  exists p : positive,
    10 ^ Z.of_nat k = Zpos p
    /\ Pos.to_little_uint p = Nat.iter k Decimal.D0 (Decimal.D1 Decimal.Nil).
Proof.
  induction k as [|k (p & Hp & Hd)].
  - exists 1%positive. split; reflexivity.
  - exists (10 * p)%positive. split.
    + rewrite Nat2Z.inj_succ, Z.pow_succ_r, Hp by lia. reflexivity.
    + pose proof (DecimalPos.Unsigned.to_ldec_tenfold p) as H.
      cbn [DecimalPos.Unsigned.to_lu N.mul] in H.
      rewrite H, Hd. reflexivity.
Qed.

Lemma digits_ten_pow (k : nat) :
  digits (10 ^ Z.of_nat k) = S k
  /\ String.length (str_of_int (10 ^ Z.of_nat k)) = S k.
Proof.
  destruct (ten_pow_little_uint k) as (p & Hp & Hd).
  unfold digits. rewrite Hp. cbn [Z.abs].
  rewrite length_str_of_pos, Hd, DecimalFacts.nb_digits_iter_D0.
  cbn [Decimal.nb_digits]. split; lia.
Qed.




Example get_items_abc :
  get_items (V := json_native) "abc" None = inl [WrongType "item_id"].
Proof. reflexivity. Qed.

(** The limit is on the digits: a number of 4300 digits is printed, one of
    4301 digits is not. *)
Example serialisable_at_the_limit :
  serialisable (PInt (10 ^ Z.of_nat 4299)) = true
  /\ serialisable (PInt (10 ^ Z.of_nat 4300)) = false.
Proof.
  unfold serialisable.
  rewrite (proj1 (digits_ten_pow 4299)), (proj1 (digits_ten_pow 4300)).
  split; reflexivity.
Qed.

(** An integer beyond the range of a float is not a price. *)
Example price_out_of_range :
  post_items (V := json_native)
    (JObj [("name", JStr "pen"); ("price", JInt (10 ^ 400))])
  = inl [WrongType "price"].
Proof. vm_compute. reflexivity. Qed.

(** ** The process: no state, no dependence on [q] *)

Section ProcessFacts.
Context {V : Validators} {S : Type}.

Lemma serve_state (st : S) (rs : list request) : fst (serve st rs) = st.
Proof.
  induction rs as [|r rs IH]; [reflexivity|].
  cbn [serve handle]. destruct (serve st rs) as [st2 answers].
  exact IH.
Qed.

Lemma serve_answers (st : S) (rs : list request) :
  snd (serve st rs) = map dispatch rs.
Proof.
  induction rs as [|r rs IH]; [reflexivity|].
  cbn [serve handle map]. destruct (serve st rs) as [st2 answers].
  cbn [snd] in *. now rewrite IH.
Qed.

End ProcessFacts.

(** C5: the answer to a request is a function of that request alone. Two
    calls of [read_item] with the same id and any two values of [q] return
    the same dict, and so do the two route answers for the same path
    segment; and whatever the states of two processes and whatever requests
    each has answered before, the same request gets the same answer from
    both. *)
Theorem answers_depend_on_input_only :
  forall V : Validators,
    (forall (n : Z) (q1 q2 : option string), read_item n q1 = read_item n q2)
    /\ (forall (raw : string) (q1 q2 : option string),
          get_items raw q1 = get_items raw q2)
    /\ (forall (S : Type) (st1 st2 : S) (before1 before2 : list request)
               (r : request),
          exists answer,
            snd (serve st1 (before1 ++ [r])%list)
            = (snd (serve st1 before1) ++ [answer])%list
            /\ snd (serve st2 (before2 ++ [r])%list)
               = (snd (serve st2 before2) ++ [answer])%list).
Proof.
  intros V. split; [reflexivity|]. split.
  - intros raw q1 q2. unfold get_items.
    destruct (int_validate raw); reflexivity.
  - intros S st1 st2 before1 before2 r. exists (dispatch r).
    rewrite !serve_answers, !map_app. split; reflexivity.
Qed.

(** Storing is visible in this model: a procedure that binds a name leaves
    a namespace in which the name is bound. *)
Example store_global_is_visible :
  snd (store_global "last" (PInt 1) []) = [("last", PInt 1)]
  /\ fst (proc_bind (store_global "last" (PInt 1))
            (fun _ => load_global "last") []) = Some (PInt 1).
Proof. split; reflexivity. Qed.

Section CallFacts.
Context {V : Validators}.

Lemma post_items_call_run (body : json) (ns : namespace) :
  post_items_call body ns = (post_items body, ns).
Proof.
  unfold post_items_call, post_items.
  destruct body; try reflexivity.
  destruct (validate_Item fields); reflexivity.
Qed.

Lemma get_items_call_run (raw : string) (q : option string) (ns : namespace) :
  get_items_call raw q ns = (get_items raw q, ns).
Proof.
  unfold get_items_call, get_items.
  destruct (int_validate raw); reflexivity.
Qed.

Lemma dispatch_call_run (r : request) (ns : namespace) :
  dispatch_call r ns = (dispatch r, ns).
Proof.
  destruct r; cbn [dispatch_call dispatch];
    [reflexivity | apply post_items_call_run | apply get_items_call_run].
Qed.

Lemma serve_calls_run (rs : list request) (ns : namespace) :
  serve_calls rs ns = (map dispatch rs, ns).
Proof.
  induction rs as [|r rs IH]; [reflexivity|].
  cbn [serve_calls map]. unfold proc_bind.
  rewrite dispatch_call_run, IH. reflexivity.
Qed.

End CallFacts.

(** C6: a call of [create_item] returns its dict and leaves the module's
    namespace exactly as it found it, whatever is bound there; so does the
    create route, for a body that validates and for one that does not. A
    lookup made after a create request therefore runs against the same
    namespace and gets the same answer as without it, and taking a create
    request out of any sequence of requests changes neither the namespace
    at the end nor any other answer. *)
Theorem create_item_call_stores_nothing :
  forall (V : Validators) (ns : namespace),
    (forall item : Item, create_item_call item ns = (create_item item, ns))
    /\ (forall body : json, snd (post_items_call body ns) = ns)
    /\ (forall (body : json) (raw : string) (q : option string),
          proc_bind (post_items_call body) (fun _ => get_items_call raw q) ns
          = get_items_call raw q ns)
    /\ (forall (body : json) (before after : list request),
          snd (serve_calls (before ++ PostItems body :: after)%list ns)
          = snd (serve_calls (before ++ after)%list ns)
          /\ fst (serve_calls (before ++ PostItems body :: after)%list ns)
             = (fst (serve_calls before ns)
                ++ post_items body :: fst (serve_calls after ns))%list
          /\ fst (serve_calls (before ++ after)%list ns)
             = (fst (serve_calls before ns) ++ fst (serve_calls after ns))%list).
Proof.
  intros V ns. split; [reflexivity|].
  split; [intros body; now rewrite post_items_call_run|].
  split.
  - intros body raw q. unfold proc_bind.
    now rewrite post_items_call_run.
  - intros body before after.
    rewrite !serve_calls_run. cbn [fst snd]. rewrite !map_app.
    repeat split.
Qed.

(** A lookup made after a create request gets the answer it gets without
    it. *)
Example lookup_after_create :
  snd (serve (V := json_native) tt
         [PostItems (JObj [("name", JStr "pen"); ("price", JInt 2)]);
          GetItems "4" None])
  = [inr (create_item (mkItem "pen" None 2%float));
     inr [("item_id", PInt 4); ("square", PInt 16)]].
Proof. reflexivity. Qed.

(** ** The client *)

Section ClientFacts.
Context {T : Transport}.

Lemma on_create_not_200 name description price page response :
  requests_post "http://127.0.0.1:8000/items/" (item_data name description price)
  = inr response ->
  status_code response <> 200 ->
  on_create name description price page
  = ((page ++ [error "Failed to create the item."])%list, inr tt).
Proof.
  intros Hpost Hcode. unfold on_create, bind. rewrite Hpost. cbn.
  destruct (Z.eqb_spec (status_code response) 200); [contradiction|].
  reflexivity.
Qed.

Lemma on_get_not_200 item_id page response :
  requests_get ("http://127.0.0.1:8000/items/" ++ str_of_int item_id)
  = inr response ->
  status_code response <> 200 ->
  on_get item_id page
  = ((page ++ [error "Failed to fetch item details."])%list, inr tt).
Proof.
  intros Hget Hcode. unfold on_get, bind. rewrite Hget. cbn.
  destruct (Z.eqb_spec (status_code response) 200); [contradiction|].
  reflexivity.
Qed.

Lemma success_status_false_not_200 (code : Z) :
  success_status code = false -> code <> 200.
Proof.
  unfold success_status. intros H ->. discriminate.
Qed.

End ClientFacts.

(** C7: whatever the transport, when the answer to the create call has a
    status outside 200..299 the handler of the create button puts exactly
    one element on the page, the error "Failed to create the item.", and
    when the answer to the lookup call has such a status the handler of the
    lookup button puts exactly the error "Failed to fetch item details.";
    neither reads the body of the answer. *)
Theorem failure_message_on_non_success :
  forall T : Transport,
    (forall name description price page response,
        requests_post "http://127.0.0.1:8000/items/"
          (item_data name description price) = inr response ->
        success_status (status_code response) = false ->
        on_create name description price page
        = ((page ++ [error "Failed to create the item."])%list, inr tt))
    /\ (forall item_id page response,
          requests_get ("http://127.0.0.1:8000/items/" ++ str_of_int item_id)
          = inr response ->
          success_status (status_code response) = false ->
          on_get item_id page
          = ((page ++ [error "Failed to fetch item details."])%list, inr tt)).
Proof.
  intros T. split.
  - intros name description price page response Hpost Hcode.
    eapply on_create_not_200; eauto using success_status_false_not_200.
  - intros item_id page response Hget Hcode.
    eapply on_get_not_200; eauto using success_status_false_not_200.
Qed.

Lemma failure_message_on_non_success_witness :
  on_create (T := always 422) "pen" "" 0%float []
  = ([error "Failed to create the item."], inr tt)
  /\ on_get (T := always 500) 7 []
     = ([error "Failed to fetch item details."], inr tt).
Proof.
  split.
  - exact (proj1 (failure_message_on_non_success (always 422))
             "pen" "" 0%float [] (mkResponse 422 None) eq_refl eq_refl).
  - exact (proj2 (failure_message_on_non_success (always 500))
             7 [] (mkResponse 500 None) eq_refl eq_refl).
Defined.

(** C9: the test of both handlers is equality with 200. Whatever the
    transport, an answer with any other status, 201 and 204 included, puts
    the operation's failure message on the page and nothing else; an answer
    with status 200 takes the other branch, which decodes the body and shows
    what it holds. *)
Theorem success_test_is_200_exactly :
  forall T : Transport,
    (forall name description price page response,
        requests_post "http://127.0.0.1:8000/items/"
          (item_data name description price) = inr response ->
        (status_code response <> 200 ->
         on_create name description price page
         = ((page ++ [error "Failed to create the item."])%list, inr tt))
        /\ (status_code response = 200 ->
            on_create name description price page
            = (body <- lift (response_json response) ;;
               message <- lift (subscript body "message") ;;
               show (success message))%script page))
    /\ (forall item_id page response,
          requests_get ("http://127.0.0.1:8000/items/" ++ str_of_int item_id)
          = inr response ->
          (status_code response <> 200 ->
           on_get item_id page
           = ((page ++ [error "Failed to fetch item details."])%list, inr tt))
          /\ (status_code response = 200 ->
              on_get item_id page
              = (item <- lift (response_json response) ;;
                 shown_id <- lift (subscript item "item_id") ;;
                 show (write "Item ID: " shown_id) ;;
                 shown_square <- lift (get_default item "square"
                                         (JStr "No query provided")) ;;
                 show (write "Query: " shown_square))%script page)).
Proof.
  intros T. split.
  - intros name description price page response Hpost. split.
    + now apply on_create_not_200.
    + intros Hcode. unfold on_create. unfold bind at 1.
      rewrite Hpost. cbn [lift ret]. rewrite Hcode. reflexivity.
  - intros item_id page response Hget. split.
    + now apply on_get_not_200.
    + intros Hcode. unfold on_get. unfold bind at 1.
      rewrite Hget. cbn [lift ret]. rewrite Hcode. reflexivity.
Qed.

Lemma success_test_is_200_exactly_witness :
  on_create (T := always 201) "pen" "" 0%float []
  = ([error "Failed to create the item."], inr tt)
  /\ on_get (T := always 204) 7 []
     = ([error "Failed to fetch item details."], inr tt).
Proof.
  split.
  - refine (proj1 (proj1 (success_test_is_200_exactly (always 201))
                     "pen" "" 0%float [] (mkResponse 201 None) eq_refl) _).
    discriminate.
  - refine (proj1 (proj2 (success_test_is_200_exactly (always 204))
                     7 [] (mkResponse 204 None) eq_refl) _).
    discriminate.
Defined.

(** A call that raises is not turned into either message: the script stops
    at the exception with nothing added to the page. *)
Example transport_failure_is_raised :
  main (T := unreachable) (mkSession "pen" "" None true None true) []
  = ([title "FastAPI + Streamlit Example"], inl ConnectionError).
Proof. reflexivity. Qed.


Section PayloadFacts.
Context {T : Transport}.

Lemma main_unfold (s : Session) (page : list element) :
  main s page
  = match (if create_clicked s
           then on_create (name_entry s) (description_entry s)
                  (number_input_float 0%float (price_entry s))
           else ret tt) (page ++ [title "FastAPI + Streamlit Example"])%list with
    | (page1, inr _) =>
        (if get_clicked s
         then on_get (number_input_int 1 (item_id_entry s))
         else ret tt) page1
    | (page1, inl e) => (page1, inl e)
    end.
Proof. reflexivity. Qed.

End PayloadFacts.






Example number_input_float_clamps :
  number_input_float 0%float (Some (-3)%float) = 0%float
  /\ number_input_float 0%float (Some 2.5%float) = 2.5%float
  /\ number_input_float 0%float None = 0%float
  /\ number_input_float 0%float (Some nan) = 0%float.
Proof. repeat split. Qed.

(** The arguments [main] hands to the create handler are the values of the
    three widgets, whatever the transport. *)
Lemma main_create_branch {T : Transport} (s : Session) (page : list element) :
  create_clicked s = true ->
  get_clicked s = false ->
  main s page
  = on_create (name_entry s) (description_entry s)
      (number_input_float 0%float (price_entry s))
      (page ++ [title "FastAPI + Streamlit Example"])%list.
Proof.
  intros Hc Hg. unfold main, bind, show. rewrite Hc, Hg.
  destruct (on_create _ _ _ _) as [page' [e|[]]]; reflexivity.
Qed.

(** Seen from the other side of the wire: a transport that sends the
    payload back shows it on the page, and it is [item_data] of the three
    widget values. *)
Lemma main_posts_item_data (s : Session) :
  create_clicked s = true ->
  get_clicked s = false ->
  main (T := echo) s []
  = ([title "FastAPI + Streamlit Example";
      success (JObj [("name", JStr (name_entry s));
                     ("description", JStr (description_entry s));
                     ("price", JFloat (number_input_float 0%float (price_entry s)))])],
     inr tt).
Proof.
  intros Hc Hg. rewrite main_create_branch by assumption. reflexivity.
Qed.

(** ** Client and handler together *)

Lemma strip_prefix_app (p s : string) : strip_prefix p (p ++ s) = Some s.
Proof.
  induction p as [|a p IH]; [now destruct s|].
  cbn. now rewrite Ascii.eqb_refl.
Qed.

Lemma str_of_int_nonempty (n : Z) : str_of_int n <> "".
Proof.
  intros H. pose proof (decimal_round_trip n) as Hv.
  rewrite H in Hv. discriminate.
Qed.

(** Against the handler, a create call with any text and any finite price
    is answered 200 and the page shows the confirmation with the name in
    it. *)
Lemma loopback_create (name description : string) (price : float)
      (page : list element) :
  PrimFloat.is_finite price = true ->
  on_create (T := loopback) name description price page
  = ((page ++ [success (JStr ("Item " ++ name ++ " created successfully!"))])%list,
     inr tt).
Proof.
  intros Hfinite. unfold on_create, bind at 1.
  cbn [requests_post loopback String.eqb Ascii.eqb Bool.eqb lift ret].
  unfold respond, serialise, post_items, item_data, validate_Item,
    validate_name, validate_description, validate_price.
  cbn [dict_get String.eqb Ascii.eqb Bool.eqb str_validate float_validate
       json_native create_item forallb snd serialisable Backend.price andb].
  rewrite Hfinite. reflexivity.
Qed.

(** Against the handler, a lookup by an integer whose square can be
    printed is answered 200 and the page shows the id and its square. *)
Lemma loopback_get (item_id : Z) (page : list element) :
  (String.length (str_of_int item_id) <= int_max_str_digits)%nat ->
  (digits (item_id * item_id) <= int_max_str_digits)%nat ->
  on_get (T := loopback) item_id page
  = ((page ++ [write "Item ID: " (JInt item_id);
               write "Query: " (JInt (item_id * item_id))])%list,
     inr tt).
Proof.
  intros Htext Hsq. unfold on_get, bind at 1. cbn [requests_get loopback].
  rewrite strip_prefix_app.
  pose proof (get_items_of_decimal item_id None Htext) as Hroute.
  assert (Hn : (digits item_id <= int_max_str_digits)%nat)
    by (pose proof (digits_le_text item_id); lia).
  destruct (str_of_int item_id) as [|a rest] eqn:E;
    [now apply str_of_int_nonempty in E|].
  rewrite Hroute, respond_lookup.
  rewrite (proj2 (Nat.leb_le (digits item_id) int_max_str_digits)) by lia.
  rewrite (proj2 (Nat.leb_le (digits (item_id * item_id)) int_max_str_digits))
    by lia.
  cbn. unfold bind, show. cbn. now rewrite <- app_assoc.
Qed.

Example loopback_session :
  main (T := loopback) (mkSession "pen" "" (Some 2.5%float) true (Some 4) true) []
  = ([title "FastAPI + Streamlit Example";
      success (JStr "Item pen created successfully!");
      write "Item ID: " (JInt 4);
      write "Query: " (JInt 16)],
     inr tt).
Proof. reflexivity. Qed.

(** * Further properties of the two files *)

(** ** What validation reports and what it builds *)

Section ValidationReport.
Context {V : Validators}.

Lemma validate_name_cases fields :
  (validate_name fields = inl (Missing "name") /\ dict_get "name" fields = None)
  \/ (validate_name fields = inl (WrongType "name")
      /\ exists v, dict_get "name" fields = Some v /\ str_validate v = None)
  \/ (exists v n, validate_name fields = inr n
                  /\ dict_get "name" fields = Some v /\ str_validate v = Some n).
Proof.
  unfold validate_name.
  destruct (dict_get "name" fields) as [v|]; [|now left].
  destruct (str_validate v) as [n|] eqn:E; right; [right|left]; eauto.
Qed.

Lemma validate_price_cases fields :
  (validate_price fields = inl (Missing "price") /\ dict_get "price" fields = None)
  \/ (validate_price fields = inl (WrongType "price")
      /\ exists v, dict_get "price" fields = Some v /\ float_validate v = None)
  \/ (exists v p, validate_price fields = inr p
                  /\ dict_get "price" fields = Some v /\ float_validate v = Some p).
Proof.
  unfold validate_price.
  destruct (dict_get "price" fields) as [v|]; [|now left].
  destruct (float_validate v) as [p|] eqn:E; right; [right|left]; eauto.
Qed.

Lemma validate_description_cases fields :
  (validate_description fields = inl (WrongType "description")
   /\ description_rejected fields)
  \/ (validate_description fields = inr None
      /\ (dict_get "description" fields = None
          \/ dict_get "description" fields = Some JNull))
  \/ (exists v d, validate_description fields = inr (Some d)
                  /\ dict_get "description" fields = Some v
                  /\ v <> JNull /\ str_validate v = Some d).
Proof.
  unfold validate_description, description_rejected.
  destruct (dict_get "description" fields) as [v|]; [|right; left; auto].
  destruct v; try (right; left; split; [reflexivity | now right]);
  match goal with
  | |- context [str_validate ?x] =>
      destruct (str_validate x) as [d|] eqn:E;
        [ right; right; exists x, d; repeat split; auto; discriminate
        | left; split; [reflexivity|]; exists x; repeat split; auto; discriminate ]
  end.
Qed.

End ValidationReport.

Ltac in_errors :=
  repeat match goal with
         | H : In _ (_ :: _) |- _ => destruct H as [H|H]
         | H : In _ [] |- _ => destruct H
         | H : _ \/ _ |- _ => destruct H as [H|H]
         | H : exists _, _ |- _ => destruct H as [? H]
         | H : _ /\ _ |- _ => destruct H as [? H]
         | H : description_rejected _ |- _ => destruct H as [? H]
         end;
  try discriminate; try congruence; cbn [In]; eauto 6;
  try (unfold description_rejected; eauto 6).

(** X1: when validation of an object fails, the report names every field
    at fault and only those: it is not empty, has at most three entries, and
    holds each of the five possible entries exactly when the corresponding
    fault is in the object, whatever the other fields are. The optional
    description is never reported missing. *)
Theorem validate_Item_reports_every_fault :
  forall (V : Validators) (fields : list (string * json))
         (errs : list field_error),
    validate_Item fields = inl errs ->
    errs <> []
    /\ (List.length errs <= 3)%nat
    /\ (In (Missing "name") errs <-> dict_get "name" fields = None)
    /\ (In (WrongType "name") errs
        <-> exists v, dict_get "name" fields = Some v /\ str_validate v = None)
    /\ (In (Missing "price") errs <-> dict_get "price" fields = None)
    /\ (In (WrongType "price") errs
        <-> exists v, dict_get "price" fields = Some v /\ float_validate v = None)
    /\ (In (WrongType "description") errs <-> description_rejected fields)
    /\ ~ In (Missing "description") errs.
Proof.
  intros V fields errs. unfold validate_Item.
  destruct (validate_name_cases fields)
    as [[-> Hn]|[[-> Hn]|(vn & n & -> & Hn & Hvn)]];
  destruct (validate_description_cases fields)
    as [[-> Hd]|[[-> Hd]|(vd & d & -> & Hd & Hnull & Hvd)]];
  destruct (validate_price_cases fields)
    as [[-> Hp]|[[-> Hp]|(vp & p & -> & Hp & Hvp)]];
  cbn [errors_of app]; intros [= <-];
  (split; [discriminate|]);
  (split; [cbn [List.length]; lia|]);
  repeat split; intros HIn; in_errors.
Qed.

Lemma validate_Item_reports_every_fault_witness :
  In (Missing "name") [Missing "name"; WrongType "description"; Missing "price"]
  <-> dict_get "name" [("description", JInt 3)] = None.
Proof.
  exact (proj1 (proj2 (proj2 (validate_Item_reports_every_fault json_native
                                [("description", JInt 3)]
                                [Missing "name"; WrongType "description";
                                 Missing "price"]
                                eq_refl)))).
Defined.

(** X2: when validation of an object succeeds, the item holds the coerced
    values of the name and price fields, and its description is [None]
    exactly when the field is absent or [null], and otherwise the coerced
    value of the field. *)
Theorem validate_Item_builds_from_fields :
  forall (V : Validators) (fields : list (string * json)) (item : Item),
    validate_Item fields = inr item ->
    (exists v, dict_get "name" fields = Some v
               /\ str_validate v = Some (name item))
    /\ (exists v, dict_get "price" fields = Some v
                  /\ float_validate v = Some (price item))
    /\ (description item = None
        <-> dict_get "description" fields = None
            \/ dict_get "description" fields = Some JNull)
    /\ (forall d, description item = Some d ->
          exists v, dict_get "description" fields = Some v
                    /\ v <> JNull /\ str_validate v = Some d).
Proof.
  intros V fields item. unfold validate_Item.
  destruct (validate_name_cases fields)
    as [[-> Hn]|[[-> Hn]|(vn & n & -> & Hn & Hvn)]];
  destruct (validate_description_cases fields)
    as [[-> Hd]|[[-> Hd]|(vd & d & -> & Hd & Hnull & Hvd)]];
  destruct (validate_price_cases fields)
    as [[-> Hp]|[[-> Hp]|(vp & p & -> & Hp & Hvp)]];
  cbn [errors_of app]; intros [= <-]; cbn [name price description].
  - repeat split; eauto; discriminate.
  - repeat split; eauto.
    + discriminate.
    + intros [H|H]; congruence.
    + intros d' [= <-]. eauto.
Qed.

Lemma validate_Item_builds_from_fields_witness :
  description (mkItem "pen" None 2%float) = None
  <-> dict_get "description"
        [("name", JStr "pen"); ("description", JNull); ("price", JInt 2)] = None
      \/ dict_get "description"
           [("name", JStr "pen"); ("description", JNull); ("price", JInt 2)]
         = Some JNull.
Proof.
  exact (proj1 (proj2 (proj2 (validate_Item_builds_from_fields json_native
                                [("name", JStr "pen"); ("description", JNull);
                                 ("price", JInt 2)]
                                (mkItem "pen" None 2%float) eq_refl)))).
Defined.

(** X3: validation reads the three declared keys and nothing else: two
    objects that bind [name], [description] and [price] alike get the same
    result, item or report, so neither the order of the fields nor any other
    field in the object matters. *)
Theorem validate_Item_reads_three_keys :
  forall (V : Validators) (fields1 fields2 : list (string * json)),
    dict_get "name" fields1 = dict_get "name" fields2 ->
    dict_get "description" fields1 = dict_get "description" fields2 ->
    dict_get "price" fields1 = dict_get "price" fields2 ->
    validate_Item fields1 = validate_Item fields2
    /\ post_items (JObj fields1) = post_items (JObj fields2).
Proof.
  intros V fields1 fields2 Hn Hd Hp.
  assert (H : validate_Item fields1 = validate_Item fields2).
  { unfold validate_Item, validate_name, validate_description, validate_price.
    now rewrite Hn, Hd, Hp. }
  split; [exact H|]. unfold post_items. now rewrite H.
Qed.

Lemma validate_Item_reads_three_keys_witness :
  validate_Item (V := json_native)
    [("colour", JStr "red"); ("price", JInt 2); ("name", JStr "pen")]
  = validate_Item (V := json_native) [("name", JStr "pen"); ("price", JInt 2)]
  /\ post_items (V := json_native)
       (JObj [("colour", JStr "red"); ("price", JInt 2); ("name", JStr "pen")])
     = post_items (V := json_native)
         (JObj [("name", JStr "pen"); ("price", JInt 2)]).
Proof.
  exact (validate_Item_reads_three_keys json_native
           [("colour", JStr "red"); ("price", JInt 2); ("name", JStr "pen")]
           [("name", JStr "pen"); ("price", JInt 2)]
           eq_refl eq_refl eq_refl).
Defined.

(** ** The URL of a lookup *)



(** ** The two button handlers, case by case *)

Section HandlerFacts.
Context {T : Transport}.

Lemma on_create_page name description price page :
  exists added,
    fst (on_create name description price page) = (page ++ added)%list
    /\ (List.length added <= 1)%nat
    /\ Forall (fun e => e = error create_failed \/ exists m, e = success m) added.
Proof.
  unfold on_create, bind, lift, raise, ret, show, response_json, subscript.
  destruct (requests_post _ _) as [e|r].
  { exists []. rewrite app_nil_r. repeat split; auto. }
  destruct (status_code r =? 200).
  - destruct (content r) as [[| | | | | |fields]|];
      try (exists []; rewrite app_nil_r; repeat split; auto; fail).
    destruct (dict_get "message" fields) as [m|].
    + exists [success m]. repeat split; eauto.
    + exists []. rewrite app_nil_r. repeat split; auto.
  - exists [error create_failed]. repeat split; eauto.
Qed.

Lemma on_get_page item_id page :
  exists added,
    fst (on_get item_id page) = (page ++ added)%list
    /\ (List.length added <= 2)%nat
    /\ Forall (fun e => e = error fetch_failed \/ exists t v, e = write t v) added.
Proof.
  unfold on_get, bind, lift, raise, ret, show, response_json, subscript,
    get_default.
  destruct (requests_get _) as [e|r].
  { exists []. rewrite app_nil_r. repeat split; auto. }
  destruct (status_code r =? 200).
  - destruct (content r) as [[| | | | | |fields]|];
      try (exists []; rewrite app_nil_r; repeat split; auto; fail).
    destruct (dict_get "item_id" fields) as [v|].
    + destruct (dict_get "square" fields) as [w|]; cbn;
        rewrite <- app_assoc; eexists; (split; [reflexivity|]);
        (split; [cbn; lia|]);
        repeat (apply Forall_cons; [right; eauto|]); apply Forall_nil.
    + exists []. rewrite app_nil_r. repeat split; auto.
  - exists [error fetch_failed]. repeat split; eauto.
Qed.

End HandlerFacts.

(** X6: whatever the transport answers, the create handler ends in one of
    three ways: it raises and leaves the page as it was, or it adds the one
    success element, or it adds the one failure message. It never adds two
    elements and never adds one and raises. *)
Theorem on_create_outcomes :
  forall (T : Transport) (name description : string) (price : float)
         (page : list element),
    (exists e, on_create name description price page = (page, inl e))
    \/ (exists m, on_create name description price page
                  = ((page ++ [success m])%list, inr tt))
    \/ on_create name description price page
       = ((page ++ [error "Failed to create the item."])%list, inr tt).
Proof.
  intros T name description price page.
  unfold on_create, bind, lift, raise, ret, show, response_json, subscript.
  destruct (requests_post _ _) as [e|r]; [left; eauto|].
  destruct (status_code r =? 200); [|right; right; reflexivity].
  destruct (content r) as [[| | | | | |fields]|]; try (left; eauto; fail).
  destruct (dict_get "message" fields) as [m|]; [right; left|left]; eauto.
Qed.

(** X7: the lookup handler is all or nothing: it raises and leaves the page
    as it was, or it adds both lines, the id then the value labelled
    "Query: ", or it adds the one failure message. It never leaves the first
    line on the page without the second. *)
Theorem on_get_all_or_nothing :
  forall (T : Transport) (item_id : Z) (page : list element),
    (exists e, on_get item_id page = (page, inl e))
    \/ (exists shown_id shown_square,
          on_get item_id page
          = ((page ++ [write "Item ID: " shown_id;
                       write "Query: " shown_square])%list, inr tt))
    \/ on_get item_id page
       = ((page ++ [error "Failed to fetch item details."])%list, inr tt).
Proof.
  intros T item_id page.
  unfold on_get, bind, lift, raise, ret, show, response_json, subscript,
    get_default.
  destruct (requests_get _) as [e|r]; [left; eauto|].
  destruct (status_code r =? 200); [|right; right; reflexivity].
  destruct (content r) as [[| | | | | |fields]|]; try (left; eauto; fail).
  destruct (dict_get "item_id" fields) as [v|]; [|left; eauto].
  right; left.
  destruct (dict_get "square" fields) as [w|]; cbn; rewrite <- app_assoc;
    do 2 eexists; reflexivity.
Qed.

(** X8: on an answer with status 200 the create handler shows whatever is
    bound to ["message"] in the body, whatever else the body holds; when the
    body is an object without that key it raises [KeyError] and shows
    neither a success nor the failure message; when the body is not JSON it
    raises the decoding error, and when it is JSON but not an object, a type
    error. *)
Theorem on_create_reads_message :
  forall (T : Transport) (name description : string) (price : float)
         (page : list element) (response : Response),
    requests_post "http://127.0.0.1:8000/items/"
      (item_data name description price) = inr response ->
    status_code response = 200 ->
    on_create name description price page
    = match content response with
      | Some (JObj fields) =>
          match dict_get "message" fields with
          | Some m => ((page ++ [success m])%list, inr tt)
          | None => (page, inl (KeyError "message"))
          end
      | Some _ => (page, inl TypeError)
      | None => (page, inl JSONDecodeError)
      end.
Proof.
  intros T name description price page response Hpost Hcode.
  unfold on_create, bind, response_json, subscript. rewrite Hpost.
  cbn [lift ret raise]. rewrite Hcode. cbn [Z.eqb Pos.eqb].
  destruct (content response) as [[| | | | | |fields]|]; try reflexivity.
  cbn. destruct (dict_get "message" fields); reflexivity.
Qed.

Lemma on_create_reads_message_witness :
  on_create (T := echo) "pen" "" 0%float []
  = ([success (item_data "pen" "" 0%float)], inr tt).
Proof.
  exact (on_create_reads_message echo "pen" "" 0%float []
           (mkResponse 200 (Some (JObj [("message", item_data "pen" "" 0%float)])))
           eq_refl eq_refl).
Defined.

(** X9: on an answer with status 200 whose body is an object, the lookup
    handler shows what is bound to ["item_id"] and then what is bound to
    ["square"], or the text "No query provided" when the object has no
    ["square"]; when the object has no ["item_id"] it raises [KeyError] and
    writes nothing, whether or not there is a ["square"]. *)
Theorem on_get_reads_answer :
  forall (T : Transport) (item_id : Z) (page : list element)
         (response : Response) (fields : list (string * json)),
    requests_get ("http://127.0.0.1:8000/items/" ++ str_of_int item_id)
    = inr response ->
    status_code response = 200 ->
    content response = Some (JObj fields) ->
    on_get item_id page
    = match dict_get "item_id" fields with
      | Some shown_id =>
          ((page ++ [write "Item ID: " shown_id;
                     write "Query: "
                       match dict_get "square" fields with
                       | Some shown_square => shown_square
                       | None => JStr "No query provided"
                       end])%list, inr tt)
      | None => (page, inl (KeyError "item_id"))
      end.
Proof.
  intros T item_id page response fields Hget Hcode Hbody.
  unfold on_get, bind, show, response_json, subscript, get_default.
  rewrite Hget. cbn [lift ret raise]. rewrite Hcode, Hbody. cbn.
  destruct (dict_get "item_id" fields) as [v|]; [|reflexivity].
  destruct (dict_get "square" fields) as [w|]; cbn;
    rewrite <- app_assoc; reflexivity.
Qed.

Lemma on_get_reads_answer_witness :
  on_get (T := answering (mkResponse 200 (Some (JObj [("item_id", JInt 4)])))) 4 []
  = ([write "Item ID: " (JInt 4); write "Query: " (JStr "No query provided")],
     inr tt).
Proof.
  exact (on_get_reads_answer
           (answering (mkResponse 200 (Some (JObj [("item_id", JInt 4)]))))
           4 [] (mkResponse 200 (Some (JObj [("item_id", JInt 4)])))
           [("item_id", JInt 4)] eq_refl eq_refl eq_refl).
Defined.

(** ** The handlers on the answers of the route functions *)

(** X10: when the lookup call is answered 200 with the serialised dict of
    [read_item n q], the page gets the two lines "Item ID: " with [n] and
    "Query: " with [n * n]: the line labelled as the query shows the square,
    and the text "No query provided" does not appear, whatever [q] was. *)
Theorem lookup_shows_square_as_query :
  forall (T : Transport) (item_id : Z) (page : list element)
         (n : Z) (q : option string),
    requests_get ("http://127.0.0.1:8000/items/" ++ str_of_int item_id)
    = inr (mkResponse 200 (Some (encode (read_item n q)))) ->
    on_get item_id page
    = ((page ++ [write "Item ID: " (JInt n);
                 write "Query: " (JInt (n * n))])%list, inr tt).
Proof.
  intros T item_id page n q Hget.
  unfold read_item in Hget. rewrite pow_2_square in Hget.
  unfold on_get, bind at 1. rewrite Hget. cbn.
  unfold bind, show. cbn. rewrite <- app_assoc. reflexivity.
Qed.

Lemma lookup_shows_square_as_query_witness :
  on_get (T := loopback) (-3) []
  = ([write "Item ID: " (JInt (-3)); write "Query: " (JInt 9)], inr tt).
Proof.
  exact (lookup_shows_square_as_query loopback (-3) [] (-3) None eq_refl).
Defined.

(** X11: when the create call is answered 200 with the serialised dict of
    [create_item item], the page gets one success element whose text is the
    confirmation with the item's name in it; the echoed item is not
    shown. *)
Theorem create_shows_confirmation :
  forall (T : Transport) (name description : string) (price : float)
         (page : list element) (item : Item),
    requests_post "http://127.0.0.1:8000/items/"
      (item_data name description price)
    = inr (mkResponse 200 (Some (encode (create_item item)))) ->
    on_create name description price page
    = ((page ++ [success (JStr ("Item " ++ Backend.name item
                                ++ " created successfully!"))])%list, inr tt).
Proof.
  intros T name description price page item Hpost.
  unfold on_create, bind at 1. rewrite Hpost. reflexivity.
Qed.

Lemma create_shows_confirmation_witness :
  on_create (T := loopback) "pen" "blue" 2.5%float []
  = ([success (JStr "Item pen created successfully!")], inr tt).
Proof.
  exact (create_shows_confirmation loopback "pen" "blue" 2.5%float []
           (mkItem "pen" (Some "blue") 2.5%float) eq_refl).
Defined.

(** ** The script as a whole *)

Section MainFacts.
Context {T : Transport}.

Lemma on_create_raises_page name description price page e :
  snd (on_create name description price page) = inl e ->
  on_create name description price page = (page, inl e).
Proof.
  unfold on_create, bind, lift, raise, ret, show, response_json, subscript.
  destruct (requests_post _ _) as [e'|r]; [now intros [= ->]|].
  destruct (status_code r =? 200); [|discriminate].
  destruct (content r) as [[| | | | | |fields]|]; try (now intros [= ->]).
  destruct (dict_get "message" fields) as [m|];
    [discriminate | now intros [= ->]].
Qed.

(** The page after a run: the title, then what the create handler added,
    then what the lookup handler added; a handler whose button was not
    pressed adds nothing. *)
Lemma main_page (s : Session) (page : list element) :
  exists added1 added2,
    fst (main s page)
    = (page ++ title "FastAPI + Streamlit Example" :: added1 ++ added2)%list
    /\ (List.length added1 <= 1)%nat
    /\ (List.length added2 <= 2)%nat
    /\ Forall (fun e => e = error create_failed \/ exists m, e = success m) added1
    /\ Forall (fun e => e = error fetch_failed \/ exists t v, e = write t v) added2
    /\ (create_clicked s = false -> added1 = [])
    /\ (get_clicked s = false -> added2 = []).
Proof.
  rewrite main_unfold.
  assert (Hshape : forall a1 a2 : list element,
             (((page ++ [title "FastAPI + Streamlit Example"]) ++ a1) ++ a2
              = page ++ title "FastAPI + Streamlit Example" :: a1 ++ a2)%list).
  { intros a1 a2. now rewrite <- !app_assoc. }
  assert (Hget : forall page1,
             exists added2,
               fst ((if get_clicked s
                     then on_get (number_input_int 1 (item_id_entry s))
                     else ret tt) page1) = (page1 ++ added2)%list
               /\ (List.length added2 <= 2)%nat
               /\ Forall (fun e => e = error fetch_failed
                                   \/ exists t v, e = write t v) added2
               /\ (get_clicked s = false -> added2 = [])).
  { intros page1. destruct (get_clicked s).
    - destruct (on_get_page (number_input_int 1 (item_id_entry s)) page1)
        as (a2 & H2 & L2 & F2).
      exists a2. repeat split; auto. discriminate.
    - exists []. cbn. rewrite app_nil_r. repeat split; auto. }
  assert (Hcreate :
            exists added1,
              fst ((if create_clicked s
                    then on_create (name_entry s) (description_entry s)
                           (number_input_float 0%float (price_entry s))
                    else ret tt)
                     (page ++ [title "FastAPI + Streamlit Example"])%list)
              = ((page ++ [title "FastAPI + Streamlit Example"]) ++ added1)%list
              /\ (List.length added1 <= 1)%nat
              /\ Forall (fun e => e = error create_failed
                                  \/ exists m, e = success m) added1
              /\ (create_clicked s = false -> added1 = [])).
  { destruct (create_clicked s).
    - destruct (on_create_page (name_entry s) (description_entry s)
                  (number_input_float 0%float (price_entry s))
                  (page ++ [title "FastAPI + Streamlit Example"])%list)
        as (a1 & H1 & L1 & F1).
      exists a1. repeat split; auto. discriminate.
    - exists []. cbn. rewrite app_nil_r. repeat split; auto. }
  destruct Hcreate as (a1 & H1 & L1 & F1 & E1).
  revert H1.
  match goal with
  | |- fst ?run = _ -> _ => destruct run as [page1 [e|u]]
  end; cbn [fst]; intros ->.
  - exists a1, []. cbn [fst]. rewrite app_nil_r, <- app_assoc.
    repeat split; auto.
  - destruct (Hget ((page ++ [title "FastAPI + Streamlit Example"]) ++ a1)%list)
      as (a2 & H2 & L2 & F2 & E2).
    exists a1, a2. rewrite H2, Hshape. repeat split; auto.
Qed.

End MainFacts.

(** X12: when the create button was pressed and its handler raises, the run
    ends there with that exception and a page that holds the title only:
    the lookup handler is not run, pressed or not. *)
Theorem main_stops_when_create_raises :
  forall (T : Transport) (s : Session) (page : list element) (e : exn),
    create_clicked s = true ->
    snd (on_create (name_entry s) (description_entry s)
           (number_input_float 0%float (price_entry s))
           (page ++ [title "FastAPI + Streamlit Example"])%list) = inl e ->
    main s page = ((page ++ [title "FastAPI + Streamlit Example"])%list, inl e).
Proof.
  intros T s page e Hc He.
  rewrite main_unfold, Hc. now rewrite (on_create_raises_page _ _ _ _ _ He).
Qed.

Lemma main_stops_when_create_raises_witness :
  main (T := unreachable) (mkSession "pen" "" None true (Some 4) true) []
  = ([title "FastAPI + Streamlit Example"], inl ConnectionError).
Proof.
  exact (main_stops_when_create_raises unreachable
           (mkSession "pen" "" None true (Some 4) true) [] ConnectionError
           eq_refl eq_refl).
Defined.

(** X13: a run only ever adds to the page: what was there stays, the title
    comes next, and at most three more elements follow, whether the run
    ends normally or in an exception. *)
Theorem main_title_first :
  forall (T : Transport) (s : Session) (page : list element),
    exists added,
      fst (main s page)
      = (page ++ title "FastAPI + Streamlit Example" :: added)%list
      /\ (List.length added <= 3)%nat.
Proof.
  intros T s page.
  destruct (main_page s page) as (a1 & a2 & H & L1 & L2 & _).
  exists (a1 ++ a2)%list. split; [exact H|].
  rewrite length_app. lia.
Qed.

(** X14: a failure message is on the page of a run only if the button of
    its operation was pressed in that run, and the message of one operation
    is never shown for the other. *)
Theorem failure_message_only_after_click :
  forall (T : Transport) (s : Session),
    (In (error "Failed to create the item.") (fst (main s []))
     -> create_clicked s = true)
    /\ (In (error "Failed to fetch item details.") (fst (main s []))
        -> get_clicked s = true).
Proof.
  intros T s.
  destruct (main_page s []) as (a1 & a2 & H & _ & _ & F1 & F2 & E1 & E2).
  rewrite H. cbn [app]. rewrite Forall_forall in F1, F2.
  split; intros [Hin|Hin]; try discriminate;
    apply in_app_or in Hin; destruct Hin as [Hin|Hin].
  - destruct (create_clicked s); [reflexivity|].
    rewrite (E1 eq_refl) in Hin. destruct Hin.
  - destruct (F2 _ Hin) as [Heq|(t & v & Heq)]; discriminate.
  - destruct (F1 _ Hin) as [Heq|(m & Heq)]; discriminate.
  - destruct (get_clicked s); [reflexivity|].
    rewrite (E2 eq_refl) in Hin. destruct Hin.
Qed.

Lemma failure_message_only_after_click_witness :
  create_clicked (mkSession "pen" "" None true None false) = true.
Proof.
  refine (proj1 (failure_message_only_after_click (always 500)
                   (mkSession "pen" "" None true None false)) _).
  cbn. right. left. reflexivity.
Defined.

(** ** What a successful create answer comes from *)

(** X15: the create route answers without error only for a body that is an
    object and validates: the answer is then [create_item] of the validated
    item, and the name in its message is what the object's [name] field was
    coerced to. No other body, a list, a string, a number or [null], ever
    reaches [create_item]. *)
Theorem post_items_success_comes_from_item :
  forall (V : Validators) (body : json) (answer : pydict),
    post_items body = inr answer ->
    exists fields item v,
      body = JObj fields
      /\ validate_Item fields = inr item
      /\ answer = create_item item
      /\ dict_get "name" fields = Some v
      /\ str_validate v = Some (name item)
      /\ dict_get "message" answer
         = Some (PStr ("Item " ++ name item ++ " created successfully!")).
Proof.
  intros V body answer. unfold post_items.
  destruct body as [| | | | | |fields]; try discriminate.
  destruct (validate_Item fields) as [errs|item] eqn:Hv; [discriminate|].
  intros [= <-].
  assert (Hname : exists v, dict_get "name" fields = Some v
                            /\ str_validate v = Some (name item)).
  { revert Hv. unfold validate_Item.
    destruct (validate_name_cases fields)
      as [[-> Hn]|[[-> Hn]|(vn & n & -> & Hn & Hvn)]];
    destruct (validate_description fields);
    destruct (validate_price fields); try discriminate.
    intros [= <-]. eauto. }
  destruct Hname as (v & Hn & Hvn).
  exists fields, item, v. repeat split; auto.
Qed.

Lemma post_items_success_comes_from_item_witness :
  exists fields item v,
    JObj [("name", JStr "pen"); ("price", JInt 2)] = JObj fields
    /\ validate_Item (V := json_native) fields = inr item
    /\ create_item (mkItem "pen" None 2%float) = create_item item
    /\ dict_get "name" fields = Some v
    /\ str_validate (Validators := json_native) v = Some (name item)
    /\ dict_get "message" (create_item (mkItem "pen" None 2%float))
       = Some (PStr ("Item " ++ name item ++ " created successfully!")).
Proof.
  exact (post_items_success_comes_from_item json_native
           (JObj [("name", JStr "pen"); ("price", JInt 2)])
           (create_item (mkItem "pen" None 2%float)) eq_refl).
Defined.
